(** * Weather-station API: query-filter composition, pagination and
      result materialisation

    Shallow embedding of [app/main.py], [app/schemas.py],
    [app/exceptions.py] and [app/exception_handlers.py].

    - Python [int] is [Z]; [str] is [string]; a SQLite row (a Python
      tuple) is a [list value] indexed with stdpp's list lookup.
    - The [**{...}] keyword dictionary handed to a pydantic model is a
      [gmap string value].
    - A request handler is a computation in a small monad that threads
      the log of storage events and may raise an exception. *)

From Stdlib Require Import ZArith String Ascii List Bool Lia.
From Stdlib Require Import Floats.PrimFloat.
From stdpp Require Import base option list gmap strings.

Set Warnings "-register-all".

Local Open Scope string_scope.
Local Open Scope list_scope.
Local Open Scope Z_scope.

(** ** Python values *)

Module Py.

(** [datetime.date]: the type of the [created] query parameter. *)
Record date := Date { year : Z; month : Z; day : Z }.

(** [datetime.datetime], produced by pydantic for [observation_time]. *)
Record datetime := Datetime {
  dt_date : date; hour : Z; minute : Z; second : Z; microsecond : Z }.

(** What [sqlite3] puts in a row ([None], [int], [float], [str],
    [bytes]) and what a validated model field can hold. *)
Inductive value :=
| VNone
| VInt (n : Z)
| VFloat (x : float)
| VStr (s : string)
| VBytes (b : list Byte.byte)
| VDatetime (t : datetime).

(** A row is a tuple of column values. *)
Abbreviation row := (list value).

(** Truth value testing, as used by [if x], [x and y], [not x]. *)
Definition bool_str (s : option string) : bool :=
  match s with
  | None => false
  | Some s => negb (String.eqb s "")
  end.

(** [datetime.date] defines neither [__bool__] nor [__len__]: every
    date object is true, only [None] is false. *)
Definition bool_date (d : option date) : bool :=
  match d with
  | None => false
  | Some _ => true
  end.

(** A list or a tuple is true exactly when it is not empty. *)
Definition bool_seq {A} (l : list A) : bool :=
  match l with
  | [] => false
  | _ :: _ => true
  end.

Definition bool_opt_seq {A} (o : option (list A)) : bool :=
  match o with
  | None => false
  | Some l => bool_seq l
  end.

End Py.
Export Py.

(** ** exceptions.py *)

Module Exceptions.

(** The two [APIException] subclasses. *)
Inductive api_exception_class :=
| NotFoundException
| BadQueryParameterException.

(** Class-level defaults. *)
Definition cls_status_code (c : api_exception_class) : Z :=
  match c with
  | NotFoundException => 404
  | BadQueryParameterException => 422
  end.

Definition cls_detail (c : api_exception_class) : string :=
  match c with
  | NotFoundException => "Resource not found."
  | BadQueryParameterException => "Bad query parameter."
  end.

Definition cls_headers (c : api_exception_class) : list (string * string) :=
  match c with
  | NotFoundException => [("X-Error", "Resource not found")]
  | BadQueryParameterException => [("X-Error", "Bad query parameter")]
  end.

Definition cls_type (c : api_exception_class) : string :=
  match c with
  | NotFoundException => "api_error"
  | BadQueryParameterException => "api_error"
  end.

(** An exception instance: [HTTPException.__init__] stores
    [status_code], [detail] and [headers]; [type] stays a class
    attribute. *)
Record APIException := {
  cls : api_exception_class;
  status_code : Z;
  detail : string;
  headers : list (string * string) }.

Definition type (e : APIException) : string := cls_type (cls e).

(** [APIException.__init__(self, *args, **kwargs)]: each of the three
    keywords falls back to the class attribute when it is not given. *)
Definition APIException_init (c : api_exception_class)
    (kw_status_code : option Z) (kw_detail : option string)
    (kw_headers : option (list (string * string))) : APIException :=
  {| cls := c;
     status_code := default (cls_status_code c) kw_status_code;
     detail := default (cls_detail c) kw_detail;
     headers := default (cls_headers c) kw_headers |}.

(** [NotFoundException()] and [BadQueryParameterException()]. *)
Definition new (c : api_exception_class) : APIException :=
  APIException_init c None None None.

(** Everything a handler can raise. The last three do not come from
    [exceptions.py]: tuple indexing out of range, a pydantic validation
    failure, and an error raised by [sqlite3] while a query runs. *)
Inductive exception :=
| API (e : APIException)
| IndexError
| ValidationError
| DatabaseError.

End Exceptions.
Export Exceptions.

(** ** exception_handlers.py *)

Module ExceptionHandlers.

Inductive json :=
| JStr (s : string)
| JInt (n : Z).

Record JSONResponse := {
  resp_status_code : Z;
  content : list (string * json) }.

Definition not_found_exception_handler (exception : APIException) : JSONResponse :=
  {| resp_status_code := status_code exception;
     content := [("message", JStr (detail exception));
                 ("type", JStr (type exception));
                 ("status_code", JInt (status_code exception))] |}.

Definition bad_query_parameter_exception_handler (exception : APIException) : JSONResponse :=
  {| resp_status_code := status_code exception;
     content := [("message", JStr (detail exception));
                 ("type", JStr (type exception));
                 ("status_code", JInt (status_code exception))] |}.

(** [app.add_exception_handler(...)] in [main.py]: the handler is
    looked up by the class of the raised exception. *)
Definition exception_handler (e : APIException) : JSONResponse :=
  match cls e with
  | NotFoundException => not_found_exception_handler e
  | BadQueryParameterException => bad_query_parameter_exception_handler e
  end.

End ExceptionHandlers.
Export ExceptionHandlers.

(** ** schemas.py *)

Module Schemas.

(** [empty_to_none]: the empty string becomes [None], everything else
    is returned unchanged. *)
Definition empty_to_none (v : value) : value :=
  match v with
  | VStr s => if String.eqb s "" then VNone else v
  | _ => v
  end.

(** The field annotations that occur in the two models. *)
Inductive annotation :=
| T_int
| T_str
| T_float
| T_datetime
| T_None
| T_EmptyStrToNone
| T_Union (args : list annotation).

(** The validators that pydantic itself supplies for the builtin types
    are library code; they are the interface below. [None] stands for
    a validation error. [parse_datetime] is the validator of
    [datetime.datetime] fields. *)
Class Pydantic := {
  int_validator : value -> option value;
  float_validator : value -> option value;
  str_validator : value -> option value;
  parse_datetime : value -> option value }.

Definition is_T_None (a : annotation) : bool :=
  match a with
  | T_None => true
  | _ => false
  end.

(** A field whose annotation is a [Union] with a [None] member accepts
    [None] and is not required. *)
Definition allow_none (a : annotation) : bool :=
  match a with
  | T_Union args => existsb is_T_None args
  | T_None => true
  | _ => false
  end.

Definition required (a : annotation) : bool := negb (allow_none a).

Definition is_VNone (v : value) : bool :=
  match v with
  | VNone => true
  | _ => false
  end.

Section Validation.
Context `{Pydantic}.

(** [ModelField.validate]: [None] is settled by [allow_none]; a
    [Union] tries its members that are not [None] from left to right
    and keeps the first that validates; [EmptyStrToNone] runs the two
    validators of its [__get_validators__] in order. *)
Fixpoint validate (a : annotation) (v : value) {struct a} : option value :=
  if is_VNone v then (if allow_none a then Some VNone else None)
  else
    match a with
    | T_int => int_validator v
    | T_str => str_validator v
    | T_float => float_validator v
    | T_datetime => parse_datetime v
    | T_None => None
    | T_EmptyStrToNone =>
        match str_validator v with
        | Some v' => Some (empty_to_none v')
        | None => None
        end
    | T_Union args =>
        (fix sub_fields (l : list annotation) : option value :=
           match l with
           | [] => None
           | t :: l' =>
               if is_T_None t then sub_fields l'
               else
                 match validate t v with
                 | Some r => Some r
                 | None => sub_fields l'
                 end
           end) args
    end.

(** A model class is the ordered list of its declared fields, the
    content of [__fields__]. *)
Definition model := list (string * annotation).

(** A model instance: its field values in declaration order. *)
Definition entity := list (string * value).

(** [BaseModel.__init__] with keyword arguments [data]: every declared
    field is looked up in [data] by its name and validated; a missing required field or a
    value that does not validate raises [ValidationError]. *)
Fixpoint validate_model (m : model) (data : gmap string value) : option entity :=
  match m with
  | [] => Some []
  | (name, a) :: m' =>
      let field :=
        match data !! name with
        | Some v => validate a v
        | None => if required a then None else Some VNone
        end in
      match field, validate_model m' data with
      | Some v, Some e => Some ((name, v) :: e)
      | _, _ => None
      end
  end.

Definition BaseModel_init (m : model) (data : gmap string value) : exception + entity :=
  match validate_model m data with
  | Some e => inr e
  | None => inl ValidationError
  end.

End Validation.

Definition Station : model :=
  [ ("id", T_int);
    ("name", T_str);
    ("latitude", T_float);
    ("longitude", T_float) ].

Definition sensor_int : annotation := T_Union [T_int; T_None; T_EmptyStrToNone].
Definition sensor_float : annotation := T_Union [T_float; T_None; T_EmptyStrToNone].

Definition Observation : model :=
  [ ("id", T_str);
    ("station_id", T_int);
    ("observation_time", T_datetime);
    ("temperature_average", sensor_int);
    ("temperature_high", sensor_int);
    ("temperature_low", sensor_int);
    ("humidity_average", sensor_int);
    ("barometric_pressure", sensor_float);
    ("wind_speed_average", sensor_int);
    ("wind_speed_high", sensor_int);
    ("wind_direction_high", sensor_float);
    ("wind_direction_average", sensor_float);
    ("radiation_average", sensor_int);
    ("radiation_high", sensor_int);
    ("rain", sensor_int);
    ("rain_last_hour", sensor_int);
    ("temperature_soil_2", sensor_int);
    ("temperature_soil_5", sensor_int);
    ("temperature_soil_10", sensor_int);
    ("temperature_soil_15", sensor_int);
    ("moisture_soil_2", sensor_int);
    ("moisture_soil_5", sensor_int);
    ("moisture_soil_10", sensor_int);
    ("moisture_soil_15", sensor_int) ].

(** [Model.__fields__.keys()] *)
Definition fields_keys (m : model) : list string := map fst m.

(** The fields declared nullable sensor readings. *)
Definition is_sensor (a : annotation) : bool :=
  match a with
  | T_Union [t; T_None; T_EmptyStrToNone] =>
      match t with
      | T_int | T_float => true
      | _ => false
      end
  | _ => false
  end.

End Schemas.
Export Schemas.

(** ** The storage collaborator *)

Module Storage.

Definition result (A : Type) : Type := (exception + A)%type.

(** A [sqlite3] connection handle. *)
Definition connection := nat.

(** What a request does to the store, in order. *)
Inductive event :=
| Connect (c : connection)
| Execute (c : connection) (name : string)
| Close (c : connection).

(** The [queries] object that [main.py] imports from [app/database.py]:
    one method per named lookup. [app/database.py] and the SQL it loads
    are not part of the sources at hand, so the handlers are modelled
    over this interface. Each method takes the bound parameters the
    handler passes (the Python values as they are, so a parameter that
    may be [None] is an [option]) and answers with the rows, or raises
    an error of [sqlite3]. *)
Inductive answer (A : Type) :=
| Rows (x : A)
| Raises.
Arguments Rows {A} x.
Arguments Raises {A}.

Record Queries := {
  get_observations :
    forall (limit : Z), answer (list row);
  get_observations_created_at :
    forall (limit : Z) (created_at : option date), answer (list row);
  get_observations_starting_after :
    forall (limit : Z) (id : option string), answer (list row);
  get_observations_created_at_starting_after :
    forall (limit : Z) (created_at : option date) (id : option string),
      answer (list row);
  get_observations_for_station :
    forall (limit : Z) (station_id : Z), answer (list row);
  get_observations_for_station_created_at :
    forall (limit : Z) (station_id : Z) (created_at : option date),
      answer (list row);
  get_observations_for_station_starting_after :
    forall (limit : Z) (station_id : Z) (id : option string),
      answer (list row);
  get_observations_for_station_created_at_starting_after :
    forall (limit : Z) (station_id : Z) (created_at : option date)
           (id : option string), answer (list row);
  get_stations : answer (list row);
  get_station : forall (id : Z), answer (option row) }.

(** Handlers run in [M]: the event log is threaded through, and an
    exception ends the computation with the log as it stands. *)
Definition M (A : Type) : Type := list event -> result A * list event.

Definition ret {A} (x : A) : M A := fun log => (inr x, log).

Definition bind {A B} (m : M A) (k : A -> M B) : M B :=
  fun log =>
    match m log with
    | (inr x, log') => k x log'
    | (inl e, log') => (inl e, log')
    end.

Definition raise {A} (e : exception) : M A := fun log => (inl e, log).

Definition is_connect (ev : event) : bool :=
  match ev with
  | Connect _ => true
  | _ => false
  end.

Definition is_execute (ev : event) : bool :=
  match ev with
  | Execute _ _ => true
  | _ => false
  end.

Definition is_close (ev : event) : bool :=
  match ev with
  | Close _ => true
  | _ => false
  end.

(** [sqlite3.connect(database_path)]: a fresh handle. *)
Definition connect : M connection :=
  fun log =>
    let c := length (List.filter is_connect log) in
    (inr c, log ++ [Connect c]).

(** [conn.close()] *)
Definition close (conn : connection) : M unit :=
  fun log => (inr tt, log ++ [Close conn]).

(** [queries.name(conn, ...)]: the lookup runs on [conn] and either
    answers or raises. *)
Definition execute {A} (conn : connection) (name : string)
    (a : answer A) : M A :=
  fun log =>
    (match a with
     | Rows x => inr x
     | Raises => inl DatabaseError
     end, log ++ [Execute conn name]).

(** A request starts with an empty log. *)
Definition run {A} (m : M A) : result A * list event := m [].

End Storage.
Export Storage.

Notation "'let!' x ':=' m 'in' k" := (bind m (fun x => k))
  (at level 10, x name, m at level 100, k at level 200).
Notation "'run!' m 'in' k" := (bind m (fun _ => k))
  (at level 10, m at level 100, k at level 200).

(** ** main.py *)

Module Main.

Section Handlers.
Context `{Pydantic}.
Variable queries : Queries.

(** [enumerate(keys)] *)
Definition enumerate {A} (l : list A) : list (nat * A) :=
  zip (seq 0 (length l)) l.

(** [{key: observation[i] for i, key in enumerate(keys)}]: the pairs
    are inserted from left to right; an index past the end of the tuple
    raises [IndexError]. *)
Fixpoint dict_comprehension (items : list (nat * string)) (observation : row)
    (acc : gmap string value) : result (gmap string value) :=
  match items with
  | [] => inr acc
  | (i, key) :: items' =>
      match observation !! i with
      | Some v => dict_comprehension items' observation (<[key := v]> acc)
      | None => inl IndexError
      end
  end.

(** [Model] called with the keywords of the dictionary
    [{key: observation[i] for i, key in enumerate(Model.__fields__.keys())}] *)
Definition construct (m : model) (observation : row) : result entity :=
  match dict_comprehension (enumerate (fields_keys m)) observation ∅ with
  | inr kwargs => BaseModel_init m kwargs
  | inl e => inl e
  end.

(** The loop [for observation in results: observations.append(...)],
    started with [observations = acc]. *)
Fixpoint for_append (m : model) (results : list row) (acc : list entity)
    : result (list entity) :=
  match results with
  | [] => inr acc
  | observation :: results' =>
      match construct m observation with
      | inr o => for_append m results' (acc ++ [o])
      | inl e => inl e
      end
  end.

Definition lift {A} (r : result A) : M A := fun log => (r, log).

(** [GET /weather]: the first [weather] of [main.py]. *)
Definition weather (starting_after : option string) (created : option date)
    (limit : Z) : M (list entity) :=
  if (limit >? 100) || (limit <? 1) then
    raise (API (new BadQueryParameterException))
  else
    let! conn := connect in
    let! results :=
      (if bool_str starting_after && bool_date created then
         execute conn "get_observations_created_at_starting_after"
           (get_observations_created_at_starting_after queries limit created starting_after)
       else if bool_str starting_after then
         execute conn "get_observations_starting_after"
           (get_observations_starting_after queries limit starting_after)
       else if bool_date created then
         execute conn "get_observations_created_at"
           (get_observations_created_at queries limit created)
       else
         execute conn "get_observations"
           (get_observations queries limit)) in
    run! close conn in
    if negb (bool_seq results) then
      raise (API (new NotFoundException))
    else
      lift (for_append Observation results []).

(** [GET /stations]: [get_stations] of [main.py], renamed because the
    lookup of the same name is a field of [Queries]. *)
Definition main_get_stations : M (list entity) :=
  let! conn := connect in
  let! results := execute conn "get_stations" (get_stations queries) in
  run! close conn in
  lift (for_append Station results []).

(** [GET /stations/{id}]: [get_station] of [main.py]. *)
Definition main_get_station (id : Z) : M entity :=
  let! conn := connect in
  let! station := execute conn "get_station" (get_station queries id) in
  run! close conn in
  if bool_opt_seq station then
    lift (construct Station (default [] station))
  else
    raise (API (new NotFoundException)).

(** [GET /stations/{id}/weather]: the second [weather] of [main.py]. *)
Definition station_weather (id : Z) (starting_after : option string)
    (created : option date) (limit : Z) : M (list entity) :=
  if (limit >? 100) || (limit <? 1) then
    raise (API (new BadQueryParameterException))
  else
    let! conn := connect in
    let! results :=
      (if bool_str starting_after && bool_date created then
         execute conn "get_observations_for_station_created_at_starting_after"
           (get_observations_for_station_created_at_starting_after queries limit id created starting_after)
       else if bool_str starting_after then
         execute conn "get_observations_for_station_starting_after"
           (get_observations_for_station_starting_after queries limit id starting_after)
       else if bool_date created then
         execute conn "get_observations_for_station_created_at"
           (get_observations_for_station_created_at queries limit id created)
       else
         execute conn "get_observations_for_station"
           (get_observations_for_station queries limit id)) in
    run! close conn in
    if negb (bool_seq results) then
      raise (API (new NotFoundException))
    else
      lift (for_append Observation results []).

End Handlers.

(** What the client sees: the value a handler returns goes out with
    status 200; an [APIException] goes through its registered handler;
    any other exception is not handled by the application and ends as
    a server error. *)
Inductive response (A : Type) :=
| OK (body : A)
| Handled (r : JSONResponse)
| ServerError (e : exception).
Arguments OK {A} body.
Arguments Handled {A} r.
Arguments ServerError {A} e.

Definition respond {A} (r : result A) : response A :=
  match r with
  | inr x => OK x
  | inl (API e) => Handled (exception_handler e)
  | inl e => ServerError e
  end.

End Main.
Export Main.

(** ** The lookups, from the specification *)

Module SpecQueries.

(** Modelled from the spec: [app/database.py] and its SQL are missing,
    so the store and the eight observation lookups, [get_station] and
    [get_stations] follow sections 3, 4.2, 4.3 and 6 of the
    specification. The store holds the observation rows and the station
    rows in storage order (ascending id and insertion order; observation
    ids are temporally ordered, so the rows of one calendar date are in
    [observation_time] then id order as well). *)
Record database := {
  observations : list row;
  stations : list row }.

(** Modelled from the spec: the columns of a row are in the declared
    field order, so an observation has its id in column 0, its station
    in column 1 and its timestamp in column 2; a station has its id in
    column 0. *)
Definition has_id (c : string) (r : row) : bool :=
  match r !! 0%nat with
  | Some (VStr s) => String.eqb s c
  | _ => false
  end.

(** Modelled from the spec: the row belongs to the station when its
    [station_id] column holds that integer. *)
Definition of_station (station_id : Z) (r : row) : bool :=
  match r !! 1%nat with
  | Some (VInt n) => n =? station_id
  | _ => false
  end.

(** Modelled from the spec: the station row with the given id. *)
Definition is_station (id : Z) (r : row) : bool :=
  match r !! 0%nat with
  | Some (VInt n) => n =? id
  | _ => false
  end.

Definition digit (n : Z) : ascii := ascii_of_nat (48 + Z.to_nat (n mod 10)).

Definition digits2 (n : Z) : string :=
  String (digit (n / 10)) (String (digit n) EmptyString).

Definition digits4 (n : Z) : string :=
  String (digit (n / 1000)) (String (digit (n / 100)) (digits2 n)).

(** Modelled from the spec: [YYYY-MM-DD], the format of [created]. *)
Definition isoformat (d : date) : string :=
  (digits4 (year d) ++ "-" ++ digits2 (month d) ++ "-" ++ digits2 (day d))%string.

(** Modelled from the spec: an observation falls on a calendar date
    when its timestamp, a text that starts with the date as
    [YYYY-MM-DD], starts with that date. *)
Definition on_date (d : date) (r : row) : bool :=
  match r !! 2%nat with
  | Some (VStr t) => String.eqb (substring 0 10 t) (isoformat d)
  | _ => false
  end.

(** Modelled from the spec: station scope, the first filter applied. *)
Definition scope (station_id : option Z) (l : list row) : list row :=
  match station_id with
  | Some s => List.filter (of_station s) l
  | None => l
  end.

(** Modelled from the spec: the date filter. A parameter bound to
    [None] compares equal to nothing. *)
Definition created_on (created_at : option date) (l : list row) : list row :=
  match created_at with
  | Some d => List.filter (on_date d) l
  | None => []
  end.

(** Modelled from the spec: the cursor is resolved by id lookup within
    the ordered set it applies to, and the rows strictly after it
    remain; an id that is not in that set leaves no row. *)
Fixpoint after (c : string) (l : list row) : list row :=
  match l with
  | [] => []
  | r :: l' => if has_id c r then l' else after c l'
  end.

(** Modelled from the spec: the cursor stage on the bound parameter;
    [None] compares equal to no id. *)
Definition starting_after (id : option string) (l : list row) : list row :=
  match id with
  | Some c => after c l
  | None => []
  end.

(** Modelled from the spec: observation ids are unique. *)
Definition unique_ids (l : list row) : Prop :=
  NoDup ((fun r : row => r !! 0%nat) <$> l).

(** Modelled from the spec: [limit] bounds the final set. *)
Definition limit_to (limit : Z) (l : list row) : list row :=
  firstn (Z.to_nat limit) l.

(** Modelled from the spec: the lookups, each one the fixed pipeline
    scope, date, cursor, limit with the stages its name mentions. *)
Definition spec_queries (db : database) : Queries := {|
  get_observations limit :=
    Rows (limit_to limit (observations db));
  get_observations_created_at limit created_at :=
    Rows (limit_to limit (created_on created_at (observations db)));
  get_observations_starting_after limit id :=
    Rows (limit_to limit (starting_after id (observations db)));
  get_observations_created_at_starting_after limit created_at id :=
    Rows (limit_to limit (starting_after id (created_on created_at (observations db))));
  get_observations_for_station limit station_id :=
    Rows (limit_to limit (scope (Some station_id) (observations db)));
  get_observations_for_station_created_at limit station_id created_at :=
    Rows (limit_to limit (created_on created_at (scope (Some station_id) (observations db))));
  get_observations_for_station_starting_after limit station_id id :=
    Rows (limit_to limit (starting_after id (scope (Some station_id) (observations db))));
  get_observations_for_station_created_at_starting_after limit station_id created_at id :=
    Rows (limit_to limit (starting_after id (created_on created_at
           (scope (Some station_id) (observations db)))));
  get_stations := Rows (stations db);
  get_station id := Rows (List.find (is_station id) (stations db)) |}.

End SpecQueries.
Export SpecQueries.

(** ** Concrete validators and a concrete store *)

Module Sample.

Definition digit_of (c : ascii) : option Z :=
  let n := Z.of_nat (nat_of_ascii c) in
  if (48 <=? n) && (n <=? 57) then Some (n - 48) else None.

Fixpoint number (s : string) (acc : Z) : option Z :=
  match s with
  | EmptyString => Some acc
  | String c s' =>
      match digit_of c with
      | Some d => number s' (10 * acc + d)
      | None => None
      end
  end.

(** Reads [YYYY-MM-DD HH:MM:SS]. *)
Definition timestamp (t : string) : option datetime :=
  match number (substring 0 4 t) 0, number (substring 5 2 t) 0,
        number (substring 8 2 t) 0, number (substring 11 2 t) 0,
        number (substring 14 2 t) 0, number (substring 17 2 t) 0 with
  | Some y, Some m, Some d, Some hh, Some mm, Some ss =>
      if String.eqb (substring 4 1 t) "-" && String.eqb (substring 7 1 t) "-"
         && String.eqb (substring 10 1 t) " " && String.eqb (substring 13 1 t) ":"
         && String.eqb (substring 16 1 t) ":" && (String.length t =? 19)%nat
      then Some (Datetime (Date y m d) hh mm ss 0)
      else None
  | _, _, _, _, _, _ => None
  end.

(** The library validators on the values they leave as they are: an
    [int] for [int], a [float] for [float], a [str] for [str], and a
    timestamp text for [datetime]. Every other value is refused here. *)
Definition plain_validators : Pydantic := {|
  int_validator v := match v with VInt _ => Some v | _ => None end;
  float_validator v := match v with VFloat _ => Some v | _ => None end;
  str_validator v := match v with VStr _ => Some v | _ => None end;
  parse_datetime v :=
    match v with
    | VDatetime _ => Some v
    | VStr t =>
        match timestamp t with
        | Some d => Some (VDatetime d)
        | None => None
        end
    | _ => None
    end |}.

(** An observation row: id, station, timestamp, the first sensor
    column, and twenty sensor columns without a reading. *)
Definition observation_row (id : string) (station_id : Z) (time : string)
    (temperature_average : value) : row :=
  VStr id :: VInt station_id :: VStr time :: temperature_average
    :: repeat VNone 20%nat.

Definition d_2019_07_11 : date := Date 2019 7 11.
Definition d_2021_07_31 : date := Date 2021 7 31.

Definition obs_A : row := observation_row "obs_A" 2 "2019-07-11 00:00:00" (VInt 21).
Definition obs_B : row := observation_row "obs_B" 1 "2019-07-11 00:05:00" (VStr "").
Definition obs_C : row := observation_row "obs_C" 1 "2019-07-12 00:00:00" VNone.

Definition station_1 : row := [VInt 1; VStr "North field"; VFloat 40.5%float; VFloat (-86.75)%float].
Definition station_2 : row := [VInt 2; VStr "South field"; VFloat 40.25%float; VFloat (-86.5)%float].

Definition sample_db : database := {|
  observations := [obs_A; obs_B; obs_C];
  stations := [station_1; station_2] |}.

Definition empty_db : database := {| observations := []; stations := [] |}.

(** A store whose every lookup raises. *)
Definition unavailable : Queries := {|
  get_observations _ := Raises;
  get_observations_created_at _ _ := Raises;
  get_observations_starting_after _ _ := Raises;
  get_observations_created_at_starting_after _ _ _ := Raises;
  get_observations_for_station _ _ := Raises;
  get_observations_for_station_created_at _ _ _ := Raises;
  get_observations_for_station_starting_after _ _ _ := Raises;
  get_observations_for_station_created_at_starting_after _ _ _ _ := Raises;
  get_stations := Raises;
  get_station _ := Raises |}.

End Sample.
Export Sample.

(** ** The two weather handlers, side by side *)

Module Outcome.

Section Outcome.
Context `{Pydantic}.
Variable queries : Queries.

(** [GET /weather] when [station] is [None],
    [GET /stations/{id}/weather] when it is [Some id]. *)
Definition request (station : option Z) : option string -> option date -> Z -> M (list entity) :=
  match station with
  | None => weather queries
  | Some id => station_weather queries id
  end.

(** The lookup the if-chain of a weather handler reaches, by name, and
    its answer. *)
Definition selected (station : option Z) (starting_after : option string)
    (created : option date) (limit : Z) : string * answer (list row) :=
  match station with
  | None =>
      if bool_str starting_after && bool_date created then
        ("get_observations_created_at_starting_after",
         get_observations_created_at_starting_after queries limit created starting_after)
      else if bool_str starting_after then
        ("get_observations_starting_after",
         get_observations_starting_after queries limit starting_after)
      else if bool_date created then
        ("get_observations_created_at",
         get_observations_created_at queries limit created)
      else
        ("get_observations", get_observations queries limit)
  | Some id =>
      if bool_str starting_after && bool_date created then
        ("get_observations_for_station_created_at_starting_after",
         get_observations_for_station_created_at_starting_after queries limit id created starting_after)
      else if bool_str starting_after then
        ("get_observations_for_station_starting_after",
         get_observations_for_station_starting_after queries limit id starting_after)
      else if bool_date created then
        ("get_observations_for_station_created_at",
         get_observations_for_station_created_at queries limit id created)
      else
        ("get_observations_for_station",
         get_observations_for_station queries limit id)
  end.

(** Column by column: the first column validated against the first
    declared field, the second against the second, and so on. *)
Fixpoint positional (m : model) (r : row) : option entity :=
  match m, r with
  | [], _ => Some []
  | (name, a) :: m', v :: r' =>
      match validate a v, positional m' r' with
      | Some w, Some e => Some ((name, w) :: e)
      | _, _ => None
      end
  | _ :: _, [] => None
  end.

(** What the library validators do with the empty string: [int('')]
    and [float('')] raise [ValueError], and a [str] validates as
    itself. *)
Definition empty_string_facts : Prop :=
  int_validator (VStr "") = None
  /\ float_validator (VStr "") = None
  /\ str_validator (VStr "") = Some (VStr "").

(** What a weather handler does with the rows once the connection is
    closed. *)
Definition finish (results : list row) : result (list entity) :=
  if negb (bool_seq results) then inl (API (new NotFoundException))
  else for_append Observation results [].

End Outcome.

(** The body a client receives for [NotFoundException]. *)
Definition not_found_response : JSONResponse :=
  {| resp_status_code := 404;
     content := [("message", JStr "Resource not found.");
                 ("type", JStr "api_error");
                 ("status_code", JInt 404)] |}.

(** The rows the lookup selected by a weather handler yields on the
    store of the specification: the stages of the pipeline that the
    truth values of the two filters switch on, in the fixed order. *)
Definition composed (db : database) (station : option Z)
    (starting_after : option string) (created : option date) (limit : Z) : list row :=
  let scoped := scope station (observations db) in
  let dated := if bool_date created then created_on created scoped else scoped in
  let cut := if bool_str starting_after
             then SpecQueries.starting_after starting_after dated else dated in
  limit_to limit cut.

(** Counting in a log. *)
Definition closed (log : list event) : nat := length (List.filter is_close log).

(** The log of a request that holds one connection for one lookup and
    gives it back. *)
Definition scoped_log (name : string) : list event :=
  [Connect 0%nat; Execute 0%nat name; Close 0%nat].

Definition released_once (log : list event) : Prop :=
  exists name, log = scoped_log name.

(** The names of the eight observation lookups: unscoped or scoped to
    a station, times none, [created], [starting_after], or both. *)
Definition lookup_name (station : option Z) (cursor dated : bool) : string :=
  ("get_observations"
   ++ match station with Some _ => "_for_station" | None => "" end
   ++ (if dated then "_created_at" else "")
   ++ (if cursor then "_starting_after" else ""))%string.

End Outcome.
Export Outcome.

(** ** Further views of the handlers *)

Module Views.

(** The body a client receives for [BadQueryParameterException]. *)
Definition bad_query_parameter_response : JSONResponse :=
  {| resp_status_code := 422;
     content := [("message", JStr "Bad query parameter.");
                 ("type", JStr "api_error");
                 ("status_code", JInt 422)] |}.

(** The lookups that [GET /stations/{id}/weather] calls for station
    [id], put in the places of the lookups that [GET /weather] calls. *)
Definition station_view (queries : Queries) (id : Z) : Queries := {|
  get_observations limit :=
    get_observations_for_station queries limit id;
  get_observations_created_at limit created_at :=
    get_observations_for_station_created_at queries limit id created_at;
  get_observations_starting_after limit cursor :=
    get_observations_for_station_starting_after queries limit id cursor;
  get_observations_created_at_starting_after limit created_at cursor :=
    get_observations_for_station_created_at_starting_after queries limit id created_at cursor;
  get_observations_for_station :=
    get_observations_for_station queries;
  get_observations_for_station_created_at :=
    get_observations_for_station_created_at queries;
  get_observations_for_station_starting_after :=
    get_observations_for_station_starting_after queries;
  get_observations_for_station_created_at_starting_after :=
    get_observations_for_station_created_at_starting_after queries;
  get_stations := get_stations queries;
  get_station := get_station queries |}.

(** An event without the name of its lookup. *)
Definition erase_name (ev : event) : event :=
  match ev with
  | Execute c _ => Execute c ""
  | _ => ev
  end.

(** A row that stops after two columns, and a store that holds it
    between two whole rows. *)
Definition short_row : row := [VStr "obs_S"; VInt 1].

Definition ragged_db : database := {|
  observations := [obs_A; short_row; obs_C];
  stations := [station_1; [VInt 3; VStr "West field"]] |}.

(** A station row with a column more than the model declares. *)
Definition wide_station : row := station_2 ++ [VStr "decommissioned"].

(** An observation row without a station. *)
Definition orphan_row : row :=
  VStr "obs_O" :: VNone :: VStr "2019-07-11 00:10:00" :: repeat VNone 21%nat.

End Views.
Export Views.

(** * Properties *)

(** ** Shape of a run *)

Section Runs.
Context `{Pydantic}.
Variable queries : Queries.

Lemma invalid_limit_run station starting_after created limit :
  limit < 1 \/ limit > 100 ->
  run (request queries station starting_after created limit)
  = (inl (API (new BadQueryParameterException)), []).
Proof.
  intros Hl.
  assert (Hb : (limit >? 100) || (limit <? 1) = true).
  { apply orb_true_iff. destruct Hl; [right; lia | left; lia]. }
  destruct station; unfold request, weather, station_weather, run; rewrite Hb; reflexivity.
Qed.

Lemma valid_limit_run station starting_after created limit :
  1 <= limit <= 100 ->
  run (request queries station starting_after created limit)
  = match snd (selected queries station starting_after created limit) with
    | Raises =>
        (inl DatabaseError,
         [Connect 0%nat; Execute 0%nat (fst (selected queries station starting_after created limit))])
    | Rows results =>
        (finish results, scoped_log (fst (selected queries station starting_after created limit)))
    end.
Proof.
  intros Hl.
  assert (Hb : (limit >? 100) || (limit <? 1) = false).
  { apply orb_false_iff. split; lia. }
  destruct station as [id|];
    unfold request, weather, station_weather, selected, run; rewrite Hb;
    destruct (bool_str starting_after), (bool_date created); simpl;
    unfold bind, execute, connect; simpl;
    match goal with
    | |- context [match ?a with Rows _ => _ | Raises => _ end] => destruct a as [results|]
    end; simpl; try reflexivity;
    unfold finish, bind, close, lift, raise; simpl;
    destruct results; reflexivity.
Qed.

End Runs.

(** ** The materialisation loop *)

Section Loop.
Context `{Pydantic}.

Lemma dict_comprehension_error items observation acc e :
  dict_comprehension items observation acc = inl e -> e = IndexError.
Proof.
  revert acc. induction items as [|[i key] items IH]; intros acc; simpl.
  - discriminate.
  - destruct (observation !! i); [apply IH | congruence].
Qed.

Lemma construct_error m observation e :
  construct m observation = inl e -> e = IndexError \/ e = ValidationError.
Proof.
  unfold construct, BaseModel_init.
  destruct (dict_comprehension _ _ _) as [e'|kwargs] eqn:Hd.
  - intros [= <-]. left. eapply dict_comprehension_error, Hd.
  - destruct (validate_model m kwargs); [discriminate | intros [= <-]; now right].
Qed.

Lemma for_append_error m results acc e :
  for_append m results acc = inl e -> e = IndexError \/ e = ValidationError.
Proof.
  revert acc. induction results as [|r results IH]; intros acc; simpl.
  - discriminate.
  - destruct (construct m r) as [e'|o] eqn:Hc.
    + intros [= <-]. eapply construct_error, Hc.
    + apply IH.
Qed.

(** The loop keeps what was there and appends one entity per row, in
    the order of the rows. *)
Lemma for_append_inv m results acc observations :
  for_append m results acc = inr observations ->
  exists os, observations = acc ++ os
             /\ Forall2 (fun r o => construct m r = inr o) results os.
Proof.
  revert acc. induction results as [|r results IH]; intros acc; simpl.
  - intros [= <-]. exists []. split; [now rewrite app_nil_r | constructor].
  - destruct (construct m r) as [e'|o] eqn:Hc; [discriminate|].
    intros Hf. destruct (IH _ Hf) as (os & -> & HF).
    exists (o :: os). split; [now rewrite <- app_assoc | now constructor].
Qed.

Lemma for_append_rows m results observations :
  for_append m results [] = inr observations ->
  Forall2 (fun r o => construct m r = inr o) results observations.
Proof.
  intros Hf. destruct (for_append_inv _ _ _ _ Hf) as (os & -> & HF). exact HF.
Qed.

Lemma finish_not_bad_query_parameter results e :
  finish results = inl (API e) -> cls e = NotFoundException.
Proof.
  unfold finish. destruct (negb (bool_seq results)).
  - now intros [= <-].
  - intros Hf. apply for_append_error in Hf as [Hf|Hf]; discriminate.
Qed.

End Loop.

(** ** Validation of [limit] *)

(** C2: a [limit] below 1 or above 100 ends either weather request
    with [BadQueryParameterException] before the store is touched (the
    log of the run is empty), whatever [starting_after] and [created]
    are, and the client receives status 422 with the fixed body; for a
    [limit] from 1 to 100 the handler does not raise that exception. *)
Theorem C2_limit_out_of_range `{Pydantic} (queries : Queries) (station : option Z)
    (starting_after : option string) (created : option date) (limit : Z) :
  (limit < 1 \/ limit > 100 ->
     run (request queries station starting_after created limit)
       = (inl (API (new BadQueryParameterException)), [])
     /\ respond (fst (run (request queries station starting_after created limit)))
        = Handled {| resp_status_code := 422;
                     content := [("message", JStr "Bad query parameter.");
                                 ("type", JStr "api_error");
                                 ("status_code", JInt 422)] |})
  /\ (1 <= limit <= 100 ->
      fst (run (request queries station starting_after created limit))
      <> inl (API (new BadQueryParameterException))).
Proof.
  split.
  - intros Hl. rewrite (invalid_limit_run queries _ _ _ _ Hl). split; reflexivity.
  - intros Hl. rewrite (valid_limit_run queries _ _ _ _ Hl).
    destruct (snd (selected queries station starting_after created limit)) as [results|]; simpl.
    + intros Hf. apply finish_not_bad_query_parameter in Hf. discriminate Hf.
    + discriminate.
Qed.

Lemma C2_limit_out_of_range_witness :
  respond (fst (run (request (H := plain_validators) (spec_queries sample_db)
                       None (Some "not an id") (Some d_2019_07_11) 101)))
  = Handled {| resp_status_code := 422;
               content := [("message", JStr "Bad query parameter.");
                           ("type", JStr "api_error");
                           ("status_code", JInt 422)] |}
  /\ fst (run (request (H := plain_validators) (spec_queries sample_db)
                 (Some 1) None None 100))
     <> inl (API (new BadQueryParameterException)).
Proof.
  split.
  - apply (C2_limit_out_of_range (H := plain_validators) (spec_queries sample_db)
             None (Some "not an id") (Some d_2019_07_11) 101). right. lia.
  - apply (C2_limit_out_of_range (H := plain_validators) (spec_queries sample_db)
             (Some 1) None None 100). lia.
Defined.

(** ** Truthiness of the filters *)

Lemma selected_name `{Pydantic} (queries : Queries) station starting_after created limit :
  fst (selected queries station starting_after created limit)
  = lookup_name station (bool_str starting_after) (bool_date created).
Proof.
  unfold selected.
  destruct station, (bool_str starting_after), (bool_date created); reflexivity.
Qed.

(** C10: an empty-string [starting_after] is handled exactly as an
    absent one, by both weather handlers: the request is the same
    computation, and with a valid [limit] the one lookup that runs is
    the variant without a cursor, by date when [created] is given and
    plain when it is not. *)
Theorem C10_empty_cursor_is_absent `{Pydantic} (queries : Queries) (station : option Z)
    (created : option date) (limit : Z) :
  request queries station (Some "") created limit
    = request queries station None created limit
  /\ (1 <= limit <= 100 ->
      List.filter is_execute
        (snd (run (request queries station (Some "") created limit)))
      = [Execute 0%nat (lookup_name station false (bool_date created))]).
Proof.
  split.
  - destruct station; reflexivity.
  - intros Hl. rewrite (valid_limit_run queries _ _ _ _ Hl), selected_name.
    destruct (snd (selected queries station (Some "") created limit)); reflexivity.
Qed.

Lemma C10_empty_cursor_is_absent_witness :
  List.filter is_execute
    (snd (run (request (H := plain_validators) (spec_queries sample_db)
                 (Some 1) (Some "") (Some d_2019_07_11) 10)))
  = [Execute 0%nat "get_observations_for_station_created_at"].
Proof.
  apply (C10_empty_cursor_is_absent (H := plain_validators) (spec_queries sample_db)
           (Some 1) (Some d_2019_07_11) 10). lia.
Defined.

(** ** The storage connection *)

(** C9, as the handlers have it: a weather request with a valid
    [limit] whose lookup returns, and a station request whose lookup
    returns, acquires one connection, runs one lookup on it and closes
    it before the rows are looked at; with an invalid [limit] nothing
    is acquired and nothing runs; when the lookup raises, the
    connection was acquired and used for that one lookup and the
    handler does not reach [close]. *)
Theorem C9_connection_per_request `{Pydantic} (queries : Queries) (station : option Z)
    (starting_after : option string) (created : option date) (limit : Z) (id : Z) :
  let name := lookup_name station (bool_str starting_after) (bool_date created) in
  let log := snd (run (request queries station starting_after created limit)) in
  (limit < 1 \/ limit > 100 -> log = [])
  /\ (1 <= limit <= 100 ->
      forall results,
        snd (selected queries station starting_after created limit) = Rows results ->
        log = [Connect 0%nat; Execute 0%nat name; Close 0%nat])
  /\ (1 <= limit <= 100 ->
      snd (selected queries station starting_after created limit) = Raises ->
      log = [Connect 0%nat; Execute 0%nat name])
  /\ (forall results, get_stations queries = Rows results ->
      snd (run (main_get_stations queries))
      = [Connect 0%nat; Execute 0%nat "get_stations"; Close 0%nat])
  /\ (get_stations queries = Raises ->
      snd (run (main_get_stations queries))
      = [Connect 0%nat; Execute 0%nat "get_stations"])
  /\ (forall found, get_station queries id = Rows found ->
      snd (run (main_get_station queries id))
      = [Connect 0%nat; Execute 0%nat "get_station"; Close 0%nat])
  /\ (get_station queries id = Raises ->
      snd (run (main_get_station queries id))
      = [Connect 0%nat; Execute 0%nat "get_station"]).
Proof.
  intros name log. subst name log. repeat split.
  - intros Hl. now rewrite (invalid_limit_run queries _ _ _ _ Hl).
  - intros Hl results Hs.
    now rewrite (valid_limit_run queries _ _ _ _ Hl), Hs, selected_name.
  - intros Hl Hs.
    now rewrite (valid_limit_run queries _ _ _ _ Hl), Hs, selected_name.
  - intros results Hs. unfold main_get_stations, run, bind, execute, connect.
    simpl. rewrite Hs. reflexivity.
  - intros Hs. unfold main_get_stations, run, bind, execute, connect.
    simpl. rewrite Hs. reflexivity.
  - intros found Hs. unfold main_get_station, run, bind, execute, connect.
    simpl. rewrite Hs. simpl. destruct (bool_opt_seq found); reflexivity.
  - intros Hs. unfold main_get_station, run, bind, execute, connect.
    simpl. rewrite Hs. reflexivity.
Qed.

Lemma C9_connection_per_request_witness :
  snd (run (request (H := plain_validators) (spec_queries sample_db)
              None None (Some d_2021_07_31) 10))
  = [Connect 0%nat; Execute 0%nat "get_observations_created_at"; Close 0%nat].
Proof.
  refine (proj1 (proj2 (C9_connection_per_request (H := plain_validators)
            (spec_queries sample_db) None None (Some d_2021_07_31) 10 1)) _ [] _).
  - lia.
  - reflexivity.
Defined.

(** The claim of one connection, one lookup and one [close] on every
    exit path fails where [limit] is refused: the log is empty. *)
Lemma C9_counterexample :
  ~ released_once
      (snd (run (request (H := plain_validators) (spec_queries sample_db)
                   None None None 0))).
Proof.
  intros [name Hn]. vm_compute in Hn. discriminate Hn.
Qed.

(** It fails as well where the lookup raises: [close] is not reached. *)
Lemma raising_lookup_leaves_connection_open :
  closed (snd (run (request (H := plain_validators) unavailable None None None 10)))
  = 0%nat.
Proof. reflexivity. Qed.

(** ** Empty results *)

(** C6: [GET /stations/{id}]: when the lookup finds no row the handler
    raises [NotFoundException] and the client receives status 404;
    when it finds a row, that row is materialised as a [Station] and
    this is what the handler returns. *)
Theorem C6_station_by_id `{Pydantic} (queries : Queries) (id : Z) :
  (get_station queries id = Rows None ->
     fst (run (main_get_station queries id)) = inl (API (new NotFoundException))
     /\ respond (fst (run (main_get_station queries id))) = Handled not_found_response)
  /\ (forall station : row,
        get_station queries id = Rows (Some station) -> station <> [] ->
        fst (run (main_get_station queries id)) = construct Station station).
Proof.
  split.
  - intros Hs. unfold main_get_station, run, bind, execute, connect. simpl.
    rewrite Hs. simpl. split; reflexivity.
  - intros station Hs Hne. unfold main_get_station, run, bind, execute, connect.
    simpl. rewrite Hs. simpl. destruct station; [congruence | reflexivity].
Qed.

Lemma C6_station_by_id_witness :
  respond (fst (run (main_get_station (H := plain_validators) (spec_queries sample_db) 999)))
    = Handled not_found_response
  /\ fst (run (main_get_station (H := plain_validators) (spec_queries sample_db) 1))
     = inr [("id", VInt 1); ("name", VStr "North field");
            ("latitude", VFloat 40.5%float); ("longitude", VFloat (-86.75)%float)].
Proof.
  split.
  - apply (C6_station_by_id (H := plain_validators) (spec_queries sample_db) 999).
    reflexivity.
  - rewrite (proj2 (C6_station_by_id (H := plain_validators) (spec_queries sample_db) 1)
               station_1); [reflexivity | reflexivity | discriminate].
Defined.

(** ** The pipeline on the store of the specification *)

Section Pipeline.

Lemma filter_sublist (p : row -> bool) (l : list row) :
  List.filter p l `sublist_of` l.
Proof.
  induction l as [|r l IH]; simpl.
  - constructor.
  - destruct (p r); now constructor.
Qed.

Lemma after_sublist c (l : list row) : after c l `sublist_of` l.
Proof.
  induction l as [|r l IH]; simpl.
  - constructor.
  - destruct (has_id c r); [apply sublist_cons_r; now left | now constructor].
Qed.

Lemma scope_sublist station (l : list row) : scope station l `sublist_of` l.
Proof. destruct station; simpl; [apply filter_sublist | reflexivity]. Qed.

Lemma created_on_sublist created (l : list row) : created_on created l `sublist_of` l.
Proof. destruct created; simpl; [apply filter_sublist | apply sublist_nil_l]. Qed.

Lemma starting_after_sublist id (l : list row) :
  SpecQueries.starting_after id l `sublist_of` l.
Proof. destruct id; simpl; [apply after_sublist | apply sublist_nil_l]. Qed.

Lemma limit_to_sublist limit (l : list row) : limit_to limit l `sublist_of` l.
Proof. apply sublist_take. Qed.

Lemma limit_to_length limit (l : list row) :
  0 <= limit -> Z.of_nat (length (limit_to limit l)) <= limit.
Proof.
  intros Hl. unfold limit_to. rewrite length_take. lia.
Qed.

Lemma composed_sublist db station starting_after created limit :
  composed db station starting_after created limit `sublist_of` observations db.
Proof.
  unfold composed.
  etransitivity; [apply limit_to_sublist|].
  etransitivity; [|apply scope_sublist].
  destruct (bool_str starting_after), (bool_date created);
    repeat first [ reflexivity
                 | etransitivity; [apply starting_after_sublist|]
                 | etransitivity; [apply created_on_sublist|] ].
Qed.

(** Past the cursor no row carries the cursor's id, when ids are
    unique. *)
Lemma after_excludes c (l : list row) :
  unique_ids l -> Forall (fun r => has_id c r = false) (after c l).
Proof.
  unfold unique_ids. induction l as [|r l IH]; simpl; intros Hnd.
  - constructor.
  - apply NoDup_cons in Hnd as [Hnotin Hnd].
    destruct (has_id c r) eqn:Hr; [|now apply IH].
    apply Forall_forall. intros r' Hin.
    destruct (has_id c r') eqn:Hr'; [|reflexivity].
    exfalso. apply Hnotin.
    unfold has_id in Hr, Hr'.
    destruct (r !! 0%nat) as [[| | |s| |]|] eqn:E; try discriminate.
    destruct (r' !! 0%nat) as [[| | |s'| |]|] eqn:E'; try discriminate.
    apply String.eqb_eq in Hr, Hr'. subst s s'.
    rewrite <- E'. apply list_elem_of_fmap. exists r'. split; [reflexivity | exact Hin].
Qed.

Lemma unique_ids_sublist (l1 l2 : list row) :
  l1 `sublist_of` l2 -> unique_ids l2 -> unique_ids l1.
Proof.
  unfold unique_ids. intros Hs Hnd.
  refine (sublist_NoDup _ _ Hnd _). now apply fmap_sublist.
Qed.

(** A cursor that names no row of the set leaves nothing. *)
Lemma after_absent c (l : list row) :
  Forall (fun r => has_id c r = false) l -> after c l = [].
Proof.
  induction 1 as [|r l Hr _ IH]; simpl; [reflexivity|]. now rewrite Hr.
Qed.

Lemma Forall_sublist_of (P : row -> Prop) (l1 l2 : list row) :
  l1 `sublist_of` l2 -> Forall P l2 -> Forall P l1.
Proof.
  intros Hs HP. apply Forall_forall. intros r Hin.
  eapply (proj1 (Forall_forall P l2)); [exact HP | eapply elem_of_sublist; eauto].
Qed.

Lemma filter_filter_comm (p q : row -> bool) (l : list row) :
  List.filter p (List.filter q l) = List.filter q (List.filter p l).
Proof.
  induction l as [|r l IH]; simpl; [reflexivity|].
  destruct (q r) eqn:Hq, (p r) eqn:Hp; simpl; rewrite ?Hq, ?Hp, ?IH; reflexivity.
Qed.

Lemma selected_spec `{Pydantic} db station starting_after created limit :
  snd (selected (spec_queries db) station starting_after created limit)
  = Rows (composed db station starting_after created limit).
Proof.
  unfold selected, composed.
  destruct station, (bool_str starting_after), (bool_date created); reflexivity.
Qed.

Lemma spec_run `{Pydantic} db station starting_after created limit :
  1 <= limit <= 100 ->
  run (request (spec_queries db) station starting_after created limit)
  = (finish (composed db station starting_after created limit),
     scoped_log (lookup_name station (bool_str starting_after) (bool_date created))).
Proof.
  intros Hl. now rewrite (valid_limit_run _ _ _ _ _ Hl), selected_spec, selected_name.
Qed.

End Pipeline.

(** ** Filter composition *)

(** C1, with the filters taken by their truth value: for a valid
    [limit] both weather handlers run exactly one lookup, the one of
    the four shapes that the truth values of [starting_after] and
    [created] select; when both are true the rows are those on the
    date (of the station, if scoped), cut strictly after the cursor
    within that set, and then limited; in every case at most [limit]
    rows come back, in storage order, and the list returned holds
    their materialisations in that order. *)
Theorem C1_filter_pipeline `{Pydantic} (db : database) (station : option Z)
    (starting_after : option string) (created : option date) (limit : Z) :
  1 <= limit <= 100 ->
  let results := composed db station starting_after created limit in
  run (request (spec_queries db) station starting_after created limit)
    = (finish results,
       scoped_log (lookup_name station (bool_str starting_after) (bool_date created)))
  /\ (bool_str starting_after = true -> bool_date created = true ->
      results = limit_to limit
                  (SpecQueries.starting_after starting_after
                     (created_on created (scope station (observations db)))))
  /\ Z.of_nat (length results) <= limit
  /\ results `sublist_of` observations db
  /\ (forall returned, finish results = inr returned ->
        Z.of_nat (length returned) <= limit
        /\ Forall2 (fun r o => construct Observation r = inr o) results returned).
Proof.
  intros Hl results.
  assert (Hlen : Z.of_nat (length results) <= limit).
  { apply limit_to_length. lia. }
  split; [now apply spec_run|].
  split; [intros Hs Hc; unfold results, composed; now rewrite Hs, Hc|].
  split; [exact Hlen|].
  split; [apply composed_sublist|].
  intros returned Hf. unfold finish in Hf.
  destruct (negb (bool_seq _)); [discriminate|].
  apply for_append_rows in Hf.
  split; [|exact Hf].
  apply Forall2_length in Hf. rewrite <- Hf. exact Hlen.
Qed.

Lemma C1_filter_pipeline_witness :
  run (request (H := plain_validators) (spec_queries sample_db)
         None (Some "obs_A") (Some d_2019_07_11) 20)
    = (finish (H := plain_validators) [obs_B],
       scoped_log "get_observations_created_at_starting_after")
  /\ [obs_B] `sublist_of` observations sample_db.
Proof.
  destruct (C1_filter_pipeline (H := plain_validators) sample_db
              None (Some "obs_A") (Some d_2019_07_11) 20) as (Hrun & _ & _ & Hsub & _).
  - lia.
  - split; [exact Hrun | exact Hsub].
Defined.

(** With the filters taken by their presence the claim fails: a
    [starting_after] that is present but empty, next to a [created]
    that is present, runs the lookup by date alone and returns the
    first rows of that date, where date, cursor, limit leave no row. *)
Lemma C1_counterexample :
  is_Some (Some "") /\ is_Some (Some d_2019_07_11)
  /\ run (request (H := plain_validators) (spec_queries sample_db)
            None (Some "") (Some d_2019_07_11) 10)
     = (finish (H := plain_validators) [obs_A; obs_B],
        scoped_log "get_observations_created_at")
  /\ limit_to 10 (SpecQueries.starting_after (Some "")
                    (created_on (Some d_2019_07_11) (scope None (observations sample_db))))
     = []
  /\ fst (run (request (H := plain_validators) (spec_queries sample_db)
                 None (Some "") (Some d_2019_07_11) 10))
     <> finish (H := plain_validators) [].
Proof.
  repeat split; try (eexists; reflexivity).
  vm_compute. discriminate.
Qed.

(** C4: on a store with unique observation ids, a weather request with
    a non-empty [starting_after] and a valid [limit] gets rows none of
    which carries the cursor's id, and the list returned is made of
    those rows. *)
Theorem C4_cursor_is_exclusive `{Pydantic} (db : database) (station : option Z)
    (cursor : string) (created : option date) (limit : Z) :
  unique_ids (observations db) ->
  cursor <> "" ->
  1 <= limit <= 100 ->
  let results := composed db station (Some cursor) created limit in
  run (request (spec_queries db) station (Some cursor) created limit)
    = (finish results, scoped_log (lookup_name station true (bool_date created)))
  /\ Forall (fun r => has_id cursor r = false) results
  /\ (forall returned, finish results = inr returned ->
        Forall2 (fun r o => construct Observation r = inr o) results returned).
Proof.
  intros Hu Hc Hl results.
  assert (Hb : bool_str (Some cursor) = true).
  { simpl. apply negb_true_iff. now apply String.eqb_neq. }
  split; [rewrite (spec_run _ _ _ _ _ Hl), Hb; reflexivity|].
  split.
  - unfold results, composed. rewrite Hb.
    eapply Forall_sublist_of; [apply limit_to_sublist|].
    apply after_excludes.
    eapply unique_ids_sublist; [|exact Hu].
    destruct (bool_date created).
    + etransitivity; [apply created_on_sublist | apply scope_sublist].
    + apply scope_sublist.
  - intros returned Hf. unfold finish in Hf.
    destruct (negb (bool_seq _)); [discriminate|].
    now apply for_append_rows.
Qed.

Lemma C4_cursor_is_exclusive_witness :
  run (request (H := plain_validators) (spec_queries sample_db)
         None (Some "obs_A") None 10)
    = (finish (H := plain_validators) [obs_B; obs_C],
       scoped_log "get_observations_starting_after")
  /\ Forall (fun r => has_id "obs_A" r = false) [obs_B; obs_C].
Proof.
  destruct (C4_cursor_is_exclusive (H := plain_validators) sample_db
              None "obs_A" None 10) as (Hrun & Hex & _).
  - unfold unique_ids. simpl.
    repeat (apply NoDup_cons_2;
            [rewrite ?elem_of_cons, elem_of_nil; intuition discriminate|]).
    apply NoDup_nil_2.
  - discriminate.
  - lia.
  - split; [exact Hrun | exact Hex].
Defined.

(** C5, as far as [limit] allows: the rows of
    [/stations/S/weather?created=D] are observations of station [S] on
    date [D] from the store; and when the store has at most [limit]
    observations on [D], they are exactly the rows of
    [/weather?created=D] that belong to station [S]. *)
Theorem C5_station_scope_first `{Pydantic} (db : database) (S : Z) (D : date) (limit : Z) :
  1 <= limit <= 100 ->
  let scoped :=
    limit_to limit (created_on (Some D) (scope (Some S) (observations db))) in
  let unscoped :=
    limit_to limit (created_on (Some D) (scope None (observations db))) in
  run (request (spec_queries db) (Some S) None (Some D) limit)
    = (finish scoped, scoped_log "get_observations_for_station_created_at")
  /\ run (request (spec_queries db) None None (Some D) limit)
    = (finish unscoped, scoped_log "get_observations_created_at")
  /\ (forall r, r ∈ scoped ->
        r ∈ observations db /\ on_date D r = true /\ of_station S r = true)
  /\ (Z.of_nat (length (List.filter (on_date D) (observations db))) <= limit ->
      scoped = List.filter (of_station S) unscoped).
Proof.
  intros Hl scoped unscoped.
  split; [now apply spec_run|].
  split; [now apply spec_run|].
  unfold scoped, unscoped; simpl. split.
  - intros r Hin.
    assert (Hin' : r ∈ List.filter (on_date D) (List.filter (of_station S) (observations db))).
    { eapply elem_of_sublist; [exact Hin | apply limit_to_sublist]. }
    apply list_elem_of_In, List.filter_In in Hin' as [Hin' HD].
    apply List.filter_In in Hin' as [Hin' HS].
    split; [now apply list_elem_of_In | now split].
  - intros Hlen. unfold limit_to.
    rewrite (take_ge (List.filter (on_date D) (observations db))) by lia.
    rewrite filter_filter_comm.
    apply take_ge.
    pose proof (sublist_length _ _
      (filter_sublist (of_station S) (List.filter (on_date D) (observations db)))).
    lia.
Qed.

Lemma C5_station_scope_first_witness :
  run (request (H := plain_validators) (spec_queries sample_db)
         (Some 1) None (Some d_2019_07_11) 10)
    = (finish (H := plain_validators) [obs_B],
       scoped_log "get_observations_for_station_created_at")
  /\ run (request (H := plain_validators) (spec_queries sample_db)
            None None (Some d_2019_07_11) 10)
    = (finish (H := plain_validators) [obs_A; obs_B],
       scoped_log "get_observations_created_at")
  /\ [obs_B] = List.filter (of_station 1) [obs_A; obs_B].
Proof.
  destruct (C5_station_scope_first (H := plain_validators) sample_db 1 d_2019_07_11 10)
    as (Hs & Hu & _ & Heq).
  - lia.
  - split; [exact Hs|]. split; [exact Hu|].
    apply Heq. vm_compute. discriminate.
Defined.

(** With [limit] applied to both requests the inclusion fails: with
    [limit] 1 the station request returns the first observation of
    station 1 on the date, the unscoped request returns the first
    observation of the date, which belongs to station 2. *)
Lemma C5_counterexample :
  run (request (H := plain_validators) (spec_queries sample_db)
         (Some 1) None (Some d_2019_07_11) 1)
    = (finish (H := plain_validators) [obs_B],
       scoped_log "get_observations_for_station_created_at")
  /\ run (request (H := plain_validators) (spec_queries sample_db)
            None None (Some d_2019_07_11) 1)
    = (finish (H := plain_validators) [obs_A],
       scoped_log "get_observations_created_at")
  /\ ~ (forall r, r ∈ [obs_B] -> r ∈ List.filter (of_station 1) [obs_A]).
Proof.
  split; [reflexivity|]. split; [reflexivity|].
  intros Hsub. specialize (Hsub obs_B (list_elem_of_here _ _)).
  vm_compute in Hsub. apply elem_of_nil in Hsub. exact Hsub.
Qed.

(** ** Empty row sets *)

(** C3, as the handlers have it: when the lookup of a weather request
    with a valid [limit] yields no row, the handler raises
    [NotFoundException] and the client receives status 404 with the
    fixed message; when it yields rows, the list returned is their
    materialisation, row by row in the order of the rows. [GET
    /stations] returns the materialisation of whatever the lookup
    yields, the empty list for no rows. On the store of the
    specification a non-empty [starting_after] that names no
    observation ends in [NotFoundException] like any other empty
    result. *)
Theorem C3_empty_is_not_found `{Pydantic} (queries : Queries) (station : option Z)
    (starting_after : option string) (created : option date) (limit : Z) :
  (1 <= limit <= 100 ->
   snd (selected queries station starting_after created limit) = Rows [] ->
     fst (run (request queries station starting_after created limit))
       = inl (API (new NotFoundException))
     /\ respond (fst (run (request queries station starting_after created limit)))
        = Handled not_found_response)
  /\ (1 <= limit <= 100 ->
      forall results,
        snd (selected queries station starting_after created limit) = Rows results ->
        results <> [] ->
        fst (run (request queries station starting_after created limit))
          = for_append Observation results []
        /\ forall returned,
             for_append Observation results [] = inr returned ->
             Forall2 (fun r o => construct Observation r = inr o) results returned)
  /\ (forall results,
        get_stations queries = Rows results ->
        fst (run (main_get_stations queries)) = for_append Station results []
        /\ (results = [] -> fst (run (main_get_stations queries)) = inr [])
        /\ forall returned,
             for_append Station results [] = inr returned ->
             Forall2 (fun r o => construct Station r = inr o) results returned)
  /\ (1 <= limit <= 100 ->
      forall db cursor,
        cursor <> "" ->
        Forall (fun r => has_id cursor r = false) (observations db) ->
        fst (run (request (spec_queries db) station (Some cursor) created limit))
          = inl (API (new NotFoundException))).
Proof.
  split; [|split; [|split]].
  - intros Hl Hs. rewrite (valid_limit_run queries _ _ _ _ Hl), Hs. split; reflexivity.
  - intros Hl results Hs Hne. split; [|apply for_append_rows].
    rewrite (valid_limit_run queries _ _ _ _ Hl), Hs. simpl.
    unfold finish. destruct results; [congruence | reflexivity].
  - intros results Hs.
    assert (Hrun : fst (run (main_get_stations queries)) = for_append Station results []).
    { unfold main_get_stations, run, bind, execute, connect. simpl.
      rewrite Hs. reflexivity. }
    split; [exact Hrun|]. split; [|apply for_append_rows].
    intros ->. exact Hrun.
  - intros Hl db cursor Hc Habs.
    assert (Hb : bool_str (Some cursor) = true).
    { simpl. apply negb_true_iff. now apply String.eqb_neq. }
    rewrite (spec_run _ _ _ _ _ Hl). simpl fst.
    unfold composed. rewrite Hb. simpl SpecQueries.starting_after.
    rewrite after_absent; [unfold limit_to; rewrite take_nil; reflexivity|].
    eapply Forall_sublist_of; [|exact Habs].
    destruct (bool_date created).
    + etransitivity; [apply created_on_sublist | apply scope_sublist].
    + apply scope_sublist.
Qed.

Lemma C3_empty_is_not_found_witness :
  respond (fst (run (request (H := plain_validators) (spec_queries sample_db)
                       None None (Some d_2021_07_31) 10)))
    = Handled not_found_response
  /\ fst (run (request (H := plain_validators) (spec_queries sample_db)
                 (Some 1) (Some "obs_nowhere") None 10))
     = inl (API (new NotFoundException)).
Proof.
  split.
  - apply (C3_empty_is_not_found (H := plain_validators) (spec_queries sample_db)
             None None (Some d_2021_07_31) 10); [lia | reflexivity].
  - apply (C3_empty_is_not_found (H := plain_validators) (spec_queries sample_db)
             (Some 1) None None 10); [lia | discriminate |].
    repeat constructor.
Defined.

(** [GET /stations] on a store without stations answers with the empty
    list and status 200, not with [NotFoundException]. *)
Lemma C3_counterexample :
  get_stations (spec_queries empty_db) = Rows []
  /\ respond (fst (run (main_get_stations (H := plain_validators) (spec_queries empty_db))))
     = OK []
  /\ respond (fst (run (main_get_stations (H := plain_validators) (spec_queries empty_db))))
     <> Handled not_found_response.
Proof.
  split; [reflexivity|]. split; [reflexivity | discriminate].
Qed.

(** ** Materialisation *)

Section Materialisation.
Context `{Pydantic}.

Lemma dict_comprehension_short keys (r : row) k acc :
  (k <= length r)%nat -> (length r < k + length keys)%nat ->
  dict_comprehension (zip (seq k (length keys)) keys) r acc = inl IndexError.
Proof.
  revert k acc. induction keys as [|key keys IH]; intros k acc Hk Hlen; simpl in *.
  - lia.
  - destruct (r !! k) as [v|] eqn:Hv; [|reflexivity].
    apply lookup_lt_Some in Hv. apply IH; lia.
Qed.

Lemma dict_comprehension_long keys (r : row) k acc :
  (k + length keys <= length r)%nat ->
  exists kwargs,
    dict_comprehension (zip (seq k (length keys)) keys) r acc = inr kwargs
    /\ (NoDup keys -> forall j key, keys !! j = Some key -> kwargs !! key = r !! (k + j)%nat)
    /\ (forall key, key ∉ keys -> kwargs !! key = acc !! key).
Proof.
  revert k acc. induction keys as [|key keys IH]; intros k acc Hlen; simpl in *.
  - exists acc. split; [reflexivity|]. split; [intros _ j key; discriminate | reflexivity].
  - destruct (lookup_lt_is_Some_2 r k) as [v Hv]; [lia|]. rewrite Hv.
    destruct (IH (S k) (<[key:=v]> acc)) as (kwargs & Hd & Hin & Hout); [lia|].
    exists kwargs. split; [exact Hd|]. split.
    + intros Hnd j key' Hj. apply NoDup_cons in Hnd as [Hnotin Hnd].
      destruct j as [|j]; simpl in Hj.
      * injection Hj as <-. rewrite (Hout _ Hnotin), lookup_insert_eq, Nat.add_0_r.
        now rewrite Hv.
      * rewrite (Hin Hnd _ _ Hj). f_equal. lia.
    + intros key' Hnotin. apply not_elem_of_cons in Hnotin as [Hne Hnotin].
      rewrite (Hout _ Hnotin). now apply lookup_insert_ne.
Qed.

Lemma validate_model_positional m (r : row) (kwargs : gmap string value) :
  (length m <= length r)%nat ->
  (forall i name a, m !! i = Some (name, a) -> kwargs !! name = r !! i) ->
  validate_model m kwargs = positional m r.
Proof.
  revert r. induction m as [|[name a] m IH]; intros r Hlen Hk; simpl.
  - reflexivity.
  - destruct r as [|v r]; simpl in Hlen; [lia|].
    rewrite (Hk 0%nat name a eq_refl). simpl.
    rewrite (IH r); [reflexivity | lia |].
    intros i name' a' Hi. exact (Hk (S i) name' a' Hi).
Qed.

(** Looking the fields up by name in the keyword dictionary comes to
    the same as going through the columns in order. *)
Lemma construct_positional m (r : row) :
  NoDup (fields_keys m) -> (length m <= length r)%nat ->
  construct m r = match positional m r with
                  | Some e => inr e
                  | None => inl ValidationError
                  end.
Proof.
  intros Hnd Hlen. unfold construct, enumerate.
  destruct (dict_comprehension_long (fields_keys m) r 0 ∅) as (kwargs & -> & Hin & _).
  { unfold fields_keys. rewrite length_map. simpl. lia. }
  unfold BaseModel_init. rewrite (validate_model_positional m r kwargs Hlen); [reflexivity|].
  intros i name a Hi. apply (Hin Hnd i name).
  unfold fields_keys. change (map fst m) with (fst <$> m).
  now rewrite list_lookup_fmap, Hi.
Qed.

Lemma construct_short m (r : row) :
  (length r < length m)%nat -> construct m r = inl IndexError.
Proof.
  intros Hlen. unfold construct, enumerate.
  rewrite dict_comprehension_short; [reflexivity | lia |].
  unfold fields_keys. rewrite length_map. simpl. lia.
Qed.

Lemma positional_lookup m (r : row) e i name a :
  positional m r = Some e -> m !! i = Some (name, a) ->
  exists v w, r !! i = Some v /\ validate a v = Some w /\ e !! i = Some (name, w).
Proof.
  revert r e i. induction m as [|[name' a'] m IH]; intros r e i Hp Hi; [discriminate|].
  destruct r as [|v r]; [discriminate|]. simpl in Hp.
  destruct (validate a' v) as [w|] eqn:Hv; [|discriminate].
  destruct (positional m r) as [e'|] eqn:Hp'; [|discriminate].
  injection Hp as <-. destruct i as [|i]; simpl in *.
  - injection Hi as -> ->. now exists v, w.
  - exact (IH r e' i Hp' Hi).
Qed.

Lemma construct_lookup m (r : row) e i name a :
  NoDup (fields_keys m) ->
  construct m r = inr e -> m !! i = Some (name, a) ->
  exists v w, r !! i = Some v /\ validate a v = Some w /\ e !! i = Some (name, w).
Proof.
  intros Hnd Hc Hi.
  destruct (Nat.lt_ge_cases (length r) (length m)) as [Hlt|Hge].
  - rewrite (construct_short _ _ Hlt) in Hc. discriminate.
  - rewrite (construct_positional _ _ Hnd Hge) in Hc.
    destruct (positional m r) as [e'|] eqn:Hp; [|discriminate].
    injection Hc as ->. eapply positional_lookup; eauto.
Qed.

(** A sensor field turns the empty string into [None]. *)
Lemma validate_sensor_empty a :
  empty_string_facts -> is_sensor a = true -> validate a (VStr "") = Some VNone.
Proof.
  intros (Hint & Hfloat & Hstr) Ha.
  destruct a as [| | | | | |args]; try discriminate.
  destruct args as [|t [|[| | | | | |?] [|[| | | | | |?] [|? ?]]]]; try discriminate.
  destruct t; try discriminate; simpl; rewrite ?Hint, ?Hfloat, Hstr; reflexivity.
Qed.

Lemma models_have_distinct_fields m :
  m = Station \/ m = Observation -> NoDup (fields_keys m).
Proof.
  intros [-> | ->]; simpl;
    repeat (apply NoDup_cons_2;
            [rewrite ?not_elem_of_cons; repeat split;
             first [discriminate | apply not_elem_of_nil]|]);
    apply NoDup_nil_2.
Qed.

End Materialisation.

(** C7: a row is materialised column by column: a row with fewer
    columns than the model has fields raises [IndexError]; otherwise
    the entity is what validating the first column as the first
    declared field, the second as the second, and so on, gives, so
    that every field of a materialised entity holds the validated
    value of the column at its position; and an empty string in the
    column of a nullable sensor field becomes [None]. *)
Theorem C7_positional_materialisation `{Pydantic} (m : model) (r : row) :
  m = Station \/ m = Observation ->
  ((length r < length m)%nat -> construct m r = inl IndexError)
  /\ ((length m <= length r)%nat ->
      construct m r = match positional m r with
                      | Some e => inr e
                      | None => inl ValidationError
                      end)
  /\ (forall e i name a,
        construct m r = inr e -> m !! i = Some (name, a) ->
        exists v w, r !! i = Some v /\ validate a v = Some w /\ e !! i = Some (name, w))
  /\ (empty_string_facts ->
      forall e i name a,
        construct m r = inr e -> m !! i = Some (name, a) ->
        is_sensor a = true -> r !! i = Some (VStr "") ->
        e !! i = Some (name, VNone)).
Proof.
  intros Hm. pose proof (models_have_distinct_fields m Hm) as Hnd.
  split; [apply construct_short|].
  split; [now apply construct_positional|].
  split; [intros e i name a; now apply construct_lookup|].
  intros Hfacts e i name a Hc Hi Ha Hr.
  destruct (construct_lookup m r e i name a Hnd Hc Hi) as (v & w & Hv & Hw & He).
  rewrite Hr in Hv. injection Hv as <-.
  rewrite (validate_sensor_empty a Hfacts Ha) in Hw. injection Hw as <-. exact He.
Qed.

Lemma C7_positional_materialisation_witness :
  exists e,
    construct (H := plain_validators) Observation obs_B = inr e
    /\ e !! 3%nat = Some ("temperature_average", VNone).
Proof.
  destruct (construct (H := plain_validators) Observation obs_B) as [x|e] eqn:He;
    [vm_compute in He; discriminate He|].
  exists e. split; [reflexivity|].
  refine (proj2 (proj2 (proj2 (C7_positional_materialisation (H := plain_validators)
            Observation obs_B _))) _ e 3%nat "temperature_average" sensor_int He _ _ _).
  - now right.
  - repeat split.
  - reflexivity.
  - reflexivity.
  - reflexivity.
Defined.

(** ** What the handlers answer, for any store *)

Section Answers.
Context `{Pydantic}.

Lemma for_append_complete m results acc os :
  Forall2 (fun r o => construct m r = inr o) results os ->
  for_append m results acc = inr (acc ++ os).
Proof.
  intros HF. revert acc.
  induction HF as [|r o results os Hc _ IH]; intros acc; simpl.
  - now rewrite app_nil_r.
  - rewrite Hc, IH, <- app_assoc. reflexivity.
Qed.

Lemma for_append_first_failure m before r after acc e :
  Forall (fun x => exists o, construct m x = inr o) before ->
  construct m r = inl e ->
  for_append m (before ++ r :: after) acc = inl e.
Proof.
  intros HF Hr. revert acc.
  induction HF as [|x before [o Ho] _ IH]; intros acc; simpl.
  - now rewrite Hr.
  - rewrite Ho. apply IH.
Qed.

Lemma respond_loop m results :
  (exists returned, for_append m results [] = inr returned)
  \/ for_append m results [] = inl IndexError
  \/ for_append m results [] = inl ValidationError.
Proof.
  destruct (for_append m results []) as [e|returned] eqn:Hf.
  - right. apply for_append_error in Hf as [-> | ->]; [now left | now right].
  - left. now exists returned.
Qed.

End Answers.

(** Splits a statement about response classes into its atoms and
    closes each by the constructors involved or by arithmetic. *)
Ltac sort_classes :=
  repeat match goal with
         | |- _ /\ _ => split
         | |- _ <-> _ => split
         | |- forall _, _ => intro
         | H : _ /\ _ |- _ => destruct H
         end;
  change (exception_handler (new NotFoundException)) with not_found_response in *;
  change (exception_handler (new BadQueryParameterException))
    with bad_query_parameter_response in *;
  first [ reflexivity | lia | (left; congruence) | (right; congruence)
        | match goal with H : _ \/ _ |- _ => destruct H; lia end
        | (unfold not_found_response, bad_query_parameter_response in *; congruence) ].

(** X1: the answer of either weather handler falls in classes that
    the request and the lookup decide: status 422 exactly for a
    [limit] outside 1..100, status 404 exactly for a valid [limit]
    with an empty lookup result, an unhandled [sqlite3] error exactly
    for a valid [limit] with a raising lookup; no other handled
    response exists. *)
Theorem weather_response_classes `{Pydantic} (queries : Queries) (station : option Z)
    (starting_after : option string) (created : option date) (limit : Z) :
  let response :=
    respond (fst (run (request queries station starting_after created limit))) in
  (response = Handled bad_query_parameter_response <-> limit < 1 \/ limit > 100)
  /\ (response = Handled not_found_response
      <-> 1 <= limit <= 100
          /\ snd (selected queries station starting_after created limit) = Rows [])
  /\ (response = ServerError DatabaseError
      <-> 1 <= limit <= 100
          /\ snd (selected queries station starting_after created limit) = Raises)
  /\ (forall r, response = Handled r ->
        r = bad_query_parameter_response \/ r = not_found_response).
Proof.
  intros response. subst response.
  destruct (decide (1 <= limit <= 100)) as [Hl|Hl].
  - rewrite (valid_limit_run queries _ _ _ _ Hl).
    destruct (snd (selected queries station starting_after created limit))
      as [[|r results]|]; simpl.
    + sort_classes.
    + unfold finish. simpl negb. cbv iota.
      destruct (respond_loop Observation (r :: results)) as [[returned ->] | [-> | ->]];
        simpl; sort_classes.
    + sort_classes.
  - assert (Hout : limit < 1 \/ limit > 100) by lia.
    rewrite (invalid_limit_run queries _ _ _ _ Hout). simpl.
    sort_classes.
Qed.

Lemma weather_response_classes_witness :
  respond (fst (run (request (H := plain_validators) unavailable
                       (Some 2) (Some "obs_A") None 100)))
  = ServerError DatabaseError.
Proof.
  apply (weather_response_classes (H := plain_validators) unavailable
           (Some 2) (Some "obs_A") None 100).
  split; [lia | reflexivity].
Defined.

(** X2: [GET /stations] never answers with a handled error (neither
    404 nor 422); when the lookup raises, the [sqlite3] error goes
    out unhandled; when it returns rows, a list is returned exactly
    when every row materialises, and the list holds the stations row
    by row. *)
Theorem get_stations_outcomes `{Pydantic} (queries : Queries) :
  (forall r, respond (fst (run (main_get_stations queries))) <> Handled r)
  /\ (get_stations queries = Raises ->
      fst (run (main_get_stations queries)) = inl DatabaseError)
  /\ (forall results returned,
        get_stations queries = Rows results ->
        (fst (run (main_get_stations queries)) = inr returned
         <-> Forall2 (fun r o => construct Station r = inr o) results returned)).
Proof.
  unfold main_get_stations, run, bind, execute, connect. simpl.
  destruct (get_stations queries) as [results|]; simpl.
  - split; [|split; [discriminate|]].
    + intros r.
      destruct (respond_loop Station results) as [[returned ->] | [-> | ->]]; discriminate.
    + intros results' returned [= <-]. split.
      * apply for_append_rows.
      * intros HF. now rewrite (for_append_complete _ _ [] _ HF).
  - split; [discriminate|]. split; [reflexivity | discriminate].
Qed.

Lemma get_stations_outcomes_witness :
  fst (run (main_get_stations (H := plain_validators) unavailable))
  = inl DatabaseError.
Proof.
  apply (get_stations_outcomes (H := plain_validators) unavailable). reflexivity.
Defined.

(** X8: the materialisation loop is all or nothing: when the rows
    before some row materialise and that row does not, a weather
    request ends with that row's error as an unhandled server error,
    after the connection was closed, and no partial list goes out. *)
Theorem first_bad_row_fails_the_request `{Pydantic} (queries : Queries)
    (station : option Z) (starting_after : option string) (created : option date)
    (limit : Z) (before : list row) (r : row) (after : list row) (e : exception) :
  1 <= limit <= 100 ->
  snd (selected queries station starting_after created limit)
    = Rows (before ++ r :: after) ->
  Forall (fun x => exists o, construct Observation x = inr o) before ->
  construct Observation r = inl e ->
  run (request queries station starting_after created limit)
    = (inl e,
       scoped_log (lookup_name station (bool_str starting_after) (bool_date created)))
  /\ respond (fst (run (request queries station starting_after created limit)))
     = ServerError e.
Proof.
  intros Hl Hs HF Hr.
  rewrite (valid_limit_run queries _ _ _ _ Hl), Hs, selected_name.
  assert (Hf : finish (before ++ r :: after) = inl e).
  { unfold finish. destruct before; simpl bool_seq; cbv iota;
      now apply for_append_first_failure. }
  rewrite Hf. split; [reflexivity|]. simpl.
  apply construct_error in Hr as [-> | ->]; reflexivity.
Qed.

Lemma first_bad_row_fails_the_request_witness :
  run (request (H := plain_validators) (spec_queries ragged_db) None None None 10)
  = (inl IndexError, scoped_log "get_observations")
  /\ respond (fst (run (request (H := plain_validators) (spec_queries ragged_db)
                         None None None 10)))
     = ServerError IndexError.
Proof.
  apply (first_bad_row_fails_the_request (H := plain_validators) (spec_queries ragged_db)
           None None None 10 [obs_A] short_row [obs_C] IndexError).
  - lia.
  - reflexivity.
  - constructor; [|constructor]. eexists. reflexivity.
  - reflexivity.
Defined.

(** X9: the station handler is the plain weather handler run over the
    station's lookups: for every store, station and request the two
    give the same outcome, and the same storage events up to the
    names of the lookups. *)
Theorem station_weather_is_weather_on_view `{Pydantic} (queries : Queries) (id : Z)
    (starting_after : option string) (created : option date) (limit : Z) :
  fst (run (station_weather queries id starting_after created limit))
    = fst (run (weather (station_view queries id) starting_after created limit))
  /\ map erase_name (snd (run (station_weather queries id starting_after created limit)))
     = map erase_name
         (snd (run (weather (station_view queries id) starting_after created limit))).
Proof.
  unfold station_weather, weather, run.
  destruct ((limit >? 100) || (limit <? 1)); [split; reflexivity|].
  destruct (bool_str starting_after), (bool_date created); simpl;
    unfold bind, execute, connect; simpl;
    match goal with
    | |- context [match ?a with Rows _ => _ | Raises => _ end] =>
        destruct a as [[|r results]|]
    end; simpl; split; reflexivity.
Qed.

(** ** What a materialised entity holds *)

Section Entities.
Context `{Pydantic}.

Lemma validate_model_names m (data : gmap string value) e :
  validate_model m data = Some e -> map fst e = fields_keys m.
Proof.
  revert e. induction m as [|[name a] m IH]; intros e; simpl.
  - now intros [= <-].
  - destruct (match data !! name with
              | Some v => validate a v
              | None => if required a then None else Some VNone
              end) as [w|]; [|discriminate].
    destruct (validate_model m data) as [e'|]; [|discriminate].
    intros [= <-]. simpl. f_equal. now apply IH.
Qed.

Lemma positional_app m (r extra : row) :
  (length m <= length r)%nat -> positional m (r ++ extra) = positional m r.
Proof.
  revert r. induction m as [|[name a] m IH]; intros r Hlen; simpl.
  - reflexivity.
  - destruct r as [|v r]; simpl in *; [lia|].
    rewrite IH by lia. reflexivity.
Qed.

Lemma construct_app m (r extra : row) :
  NoDup (fields_keys m) -> (length m <= length r)%nat ->
  construct m (r ++ extra) = construct m r.
Proof.
  intros Hnd Hlen.
  rewrite (construct_positional m (r ++ extra) Hnd) by (rewrite length_app; lia).
  rewrite (construct_positional m r Hnd Hlen).
  now rewrite positional_app.
Qed.

Lemma validate_None a :
  validate a VNone = if allow_none a then Some VNone else None.
Proof. destruct a; reflexivity. Qed.

Lemma empty_to_none_not_empty v : empty_to_none v <> VStr "".
Proof.
  destruct v as [| | |s| |]; simpl; try discriminate.
  destruct (String.eqb s "") eqn:Hs; [discriminate|].
  intros [= ->]. discriminate Hs.
Qed.

Lemma validate_sensor_not_empty a v w :
  (forall v w, int_validator v = Some w -> w <> VStr "") ->
  (forall v w, float_validator v = Some w -> w <> VStr "") ->
  is_sensor a = true -> validate a v = Some w -> w <> VStr "".
Proof.
  intros Hint Hfloat Ha.
  destruct a as [| | | | | |args]; try discriminate.
  destruct args as [|t [|[| | | | | |?] [|[| | | | | |?] [|? ?]]]]; try discriminate.
  destruct t; try discriminate; simpl;
    (destruct (is_VNone v); [intros [= <-]; discriminate|]).
  - destruct (int_validator v) as [x|] eqn:Hv; [intros [= <-]; eapply Hint, Hv|].
    destruct (str_validator v); [|discriminate].
    intros [= <-]. apply empty_to_none_not_empty.
  - destruct (float_validator v) as [x|] eqn:Hv; [intros [= <-]; eapply Hfloat, Hv|].
    destruct (str_validator v); [|discriminate].
    intros [= <-]. apply empty_to_none_not_empty.
Qed.

End Entities.

(** X4: whatever the model and the row, an entity that is built has
    exactly the declared fields of its model, each once, in the order
    of declaration. *)
Theorem entity_has_declared_fields `{Pydantic} (m : model) (r : row) (e : entity) :
  construct m r = inr e -> map fst e = fields_keys m.
Proof.
  unfold construct, BaseModel_init.
  destruct (dict_comprehension _ _ _) as [?|kwargs]; [discriminate|].
  destruct (validate_model m kwargs) as [e'|] eqn:Hv; [|discriminate].
  intros [= <-]. eapply validate_model_names, Hv.
Qed.

Lemma entity_has_declared_fields_witness :
  exists e,
    construct (H := plain_validators) Station station_1 = inr e
    /\ map fst e = ["id"; "name"; "latitude"; "longitude"].
Proof.
  eexists. split; [reflexivity|].
  apply (entity_has_declared_fields (H := plain_validators) Station station_1).
  reflexivity.
Defined.

(** X5: columns past the declared fields are not looked at: for a
    model with distinct field names and a row that has a column for
    every field, appending columns changes nothing, and the row can be
    cut after as many columns as the model has fields. *)
Theorem extra_columns_are_ignored `{Pydantic} (m : model) (r extra : row) :
  NoDup (fields_keys m) -> (length m <= length r)%nat ->
  construct m (r ++ extra) = construct m r
  /\ construct m r = construct m (take (length m) r).
Proof.
  intros Hnd Hlen. split; [now apply construct_app|].
  rewrite <- (take_drop (length m) r) at 1.
  apply construct_app; [exact Hnd|]. rewrite length_take. lia.
Qed.

Lemma extra_columns_are_ignored_witness :
  construct (H := plain_validators) Station wide_station
  = construct (H := plain_validators) Station station_2.
Proof.
  apply (extra_columns_are_ignored (H := plain_validators) Station station_2
           [VStr "decommissioned"]).
  - apply models_have_distinct_fields. now left.
  - simpl. lia.
Defined.

(** X6: a [None] column: in a field that is not nullable it makes the
    whole row fail validation; an entity that is built can have had
    [None] only in a nullable field, and holds [None] there. *)
Theorem none_column `{Pydantic} (m : model) (r : row) (i : nat) (name : string)
    (a : annotation) :
  NoDup (fields_keys m) ->
  m !! i = Some (name, a) ->
  r !! i = Some VNone ->
  (allow_none a = false -> (length m <= length r)%nat ->
     construct m r = inl ValidationError)
  /\ (forall e, construct m r = inr e ->
        allow_none a = true /\ e !! i = Some (name, VNone)).
Proof.
  intros Hnd Hi Hr.
  assert (Hbuilt : forall e, construct m r = inr e ->
            allow_none a = true /\ e !! i = Some (name, VNone)).
  { intros e Hc.
    destruct (construct_lookup m r e i name a Hnd Hc Hi) as (v & w & Hv & Hw & He).
    rewrite Hr in Hv. injection Hv as <-. rewrite validate_None in Hw.
    destruct (allow_none a); [|discriminate]. injection Hw as <-. now split. }
  split; [|exact Hbuilt].
  intros Hreq Hlen. rewrite (construct_positional m r Hnd Hlen).
  destruct (positional m r) as [e|] eqn:Hp; [|reflexivity].
  destruct (Hbuilt e) as [Hallow _]; [|congruence].
  now rewrite (construct_positional m r Hnd Hlen), Hp.
Qed.

Lemma none_column_witness :
  construct (H := plain_validators) Observation orphan_row = inl ValidationError.
Proof.
  apply (none_column (H := plain_validators) Observation orphan_row 1%nat
           "station_id" T_int).
  - apply models_have_distinct_fields. now right.
  - reflexivity.
  - reflexivity.
  - reflexivity.
  - simpl. lia.
Defined.

(** X7: no nullable sensor field of a materialised observation ever
    holds the empty string, provided the library validators of [int]
    and [float] do not produce it. *)
Theorem sensor_is_never_empty_string `{Pydantic} (r : row) (e : entity) (i : nat)
    (name : string) (a : annotation) (w : value) :
  (forall v w, int_validator v = Some w -> w <> VStr "") ->
  (forall v w, float_validator v = Some w -> w <> VStr "") ->
  construct Observation r = inr e ->
  Observation !! i = Some (name, a) ->
  is_sensor a = true ->
  e !! i = Some (name, w) ->
  w <> VStr "".
Proof.
  intros Hint Hfloat Hc Hi Ha He.
  destruct (construct_lookup Observation r e i name a
              (models_have_distinct_fields _ (or_intror eq_refl)) Hc Hi)
    as (v & w' & _ & Hw & He').
  rewrite He in He'. injection He' as ->.
  eapply validate_sensor_not_empty; eauto.
Qed.

Lemma sensor_is_never_empty_string_witness :
  exists e w,
    construct (H := plain_validators) Observation obs_B = inr e
    /\ e !! 3%nat = Some ("temperature_average", w)
    /\ w <> VStr "".
Proof.
  eexists. eexists. split; [reflexivity|]. split; [reflexivity|].
  refine (sensor_is_never_empty_string (H := plain_validators) obs_B _ 3%nat
            "temperature_average" sensor_int _ _ _ _ _ _ _).
  - intros [| | | | |] w; simpl; intros [= <-]; discriminate.
  - intros [| | | | |] w; simpl; intros [= <-]; discriminate.
  - reflexivity.
  - reflexivity.
  - reflexivity.
  - reflexivity.
Defined.

(** X3: [GET /stations/{id}] by the shape of the row the lookup finds:
    an empty tuple counts as no station (404); a row of one to three
    columns raises [IndexError]; a row of four columns or more is
    materialised from its first four columns. *)
Theorem get_station_row_shapes `{Pydantic} (queries : Queries) (id : Z) (station : row) :
  get_station queries id = Rows (Some station) ->
  (station = [] ->
     respond (fst (run (main_get_station queries id))) = Handled not_found_response)
  /\ ((0 < length station < 4)%nat ->
      fst (run (main_get_station queries id)) = inl IndexError)
  /\ ((4 <= length station)%nat ->
      fst (run (main_get_station queries id)) = construct Station (take 4 station)).
Proof.
  intros Hs.
  assert (Hrun : station <> [] ->
            fst (run (main_get_station queries id)) = construct Station station).
  { intros Hne. unfold main_get_station, run, bind, execute, connect. simpl.
    rewrite Hs. simpl. destruct station; [congruence | reflexivity]. }
  split; [|split].
  - intros ->. unfold main_get_station, run, bind, execute, connect. simpl.
    rewrite Hs. reflexivity.
  - intros Hlen. rewrite Hrun by (intros ->; simpl in Hlen; lia).
    apply construct_short. simpl. lia.
  - intros Hlen. rewrite Hrun by (intros ->; simpl in Hlen; lia).
    rewrite <- (take_drop 4 station) at 1.
    apply construct_app; [apply models_have_distinct_fields; now left|].
    rewrite length_take. change (length Station) with 4%nat. lia.
Qed.

Lemma get_station_row_shapes_witness :
  fst (run (main_get_station (H := plain_validators) (spec_queries ragged_db) 3))
  = inl IndexError.
Proof.
  refine (proj1 (proj2 (get_station_row_shapes (H := plain_validators)
            (spec_queries ragged_db) 3 [VInt 3; VStr "West field"] _)) _).
  - reflexivity.
  - simpl. lia.
Defined.

(** ** Exceptions and their responses *)

(** X10: for either exception class and whatever keywords the
    exception is built with, the response has the status code of the
    instance both as HTTP status and in the body, the detail of the
    instance as message and the type [api_error]; a keyword that is
    given replaces the class default, and the two handlers of
    [exception_handlers.py] answer alike. *)
Theorem exception_response (c : api_exception_class) (kw_status_code : option Z)
    (kw_detail : option string) (kw_headers : option (list (string * string))) :
  let e := APIException_init c kw_status_code kw_detail kw_headers in
  exception_handler e
  = {| resp_status_code := default (cls_status_code c) kw_status_code;
       content := [("message", JStr (default (cls_detail c) kw_detail));
                   ("type", JStr "api_error");
                   ("status_code", JInt (default (cls_status_code c) kw_status_code))] |}
  /\ not_found_exception_handler e = bad_query_parameter_exception_handler e.
Proof.
  destruct c; split; reflexivity.
Qed.
